(** * visitor3.cpp: a visitor resolved by overloading

    Shallow embedding of [src/design-patterns/visitor3.cpp].

    - A C++ [double] is a binary64 value: Rocq's primitive [float], whose
      operations round exactly as IEEE 754 prescribes.
    - A reference parameter [T&] is passed in state-passing style: the
      callee receives the current value of the referenced object and hands
      back the value it leaves there.
    - [Env] is the state of the process outside the objects of a call
      (whatever a closure stored in a [std::function] may read or write);
      [main] instantiates it with the contents of [std::cout].
    - A handler acts on its argument and on [Env] only. The fields of a
      [FunctionAdapter] are private and no closure of the file captures an
      adapter, so the adapter is not part of what a handler can change.
    - Overloading of [visit] on the static type of the argument is a type
      class indexed by that type. *)

From Stdlib Require Import String Ascii List ZArith QArith Qabs Floats Lia.
Import ListNotations.

Set Implicit Arguments.

(** ** Concrete shapes *)

Record Circle : Set := mkCircle { radius : float }.
Record Square : Set := mkSquare { side : float }.
Record Blob : Set := mkBlob { }.

(** ** Value initialisation: what [Result{}] denotes *)

Class ValueInit (Result : Type) : Type := value_init : Result.

#[export] Instance ValueInit_string : ValueInit string := EmptyString.
#[export] Instance ValueInit_double : ValueInit float := 0%float.

(** ** Exact value of a finite double *)

Definition pow2 (e : Z) : Q :=
  match e with
  | Zpos p => inject_Z (Z.pow_pos 2 p)
  | Z0 => 1
  | Zneg p => 1 # Pos.pow 2 p
  end.

(** [double_value d] is the rational a finite [d] denotes, [None] for an
    infinity or a NaN. *)
Definition double_value (d : float) : option Q :=
  match Prim2SF d with
  | S754_zero _ => Some 0
  | S754_finite s m e =>
      let a := inject_Z (Zpos m) * pow2 e in
      Some (if s then - a else a)
  | S754_infinity _ => None
  | S754_nan => None
  end.

(** Decidable order and distance tests on such values. *)
Definition Qltb (a b : Q) : bool := negb (Qle_bool b a).

Definition within (tol centre : Q) (v : option Q) : bool :=
  match v with
  | Some q => Qltb (Qabs (q - centre)) tol
  | None => false
  end.

(** [d] is a finite double less than [tol] away from [centre]. *)
Definition approx (d : float) (centre tol : Q) : Prop :=
  within tol centre (double_value d) = true.

(** [d] is finite and denotes the rational [q]. *)
Definition exactly (d : float) (q : Q) : Prop :=
  match double_value d with
  | Some v => v == q
  | None => False
  end.

Section Dispatch.

(** State of the process besides the objects named in a call. *)
Context {Env : Type}.

(** [std::function<Result (T& sh)>] *)
Definition Func (Result T : Type) : Type := T -> Env -> Result * T * Env.

(** A class [V] has an overload [void visit(T&)]. The result carries
    the visitor, the visited object and the environment as the call
    leaves them. *)
Class Visit (V T : Type) : Type := visit : V -> T -> Env -> V * T * Env.

(** [Visitable<Implementation>::accept]:
    [v.visit(static_cast<Implementation&>( *this))]. *)
Definition accept {Implementation Visitor : Type}
    `{Visit Visitor Implementation}
    (this : Implementation) (v : Visitor) (e : Env)
  : Implementation * Visitor * Env :=
  let '(v', this', e') := visit v this e in
  (this', v', e').

Section Adapter.

Variable Result : Type.

(** [template<class Result> class FunctionAdapter] *)
Record FunctionAdapter : Type := mkFunctionAdapter {
  _res : Result;
  _fn_circle : Func Result Circle;
  _fn_square : Func Result Square;
  _fn_blob : Func Result Blob
}.

(** [Result get(){ return _res; }] *)
Definition get (this : FunctionAdapter) : Result := _res this.

(** The constructor: [_res{}] and the three handlers copied in. *)
Definition FunctionAdapter_new `{ValueInit Result}
    (fnCircle : Func Result Circle) (fnSquare : Func Result Square)
    (fnBlob : Func Result Blob) : FunctionAdapter :=
  {| _res := value_init;
     _fn_circle := fnCircle;
     _fn_square := fnSquare;
     _fn_blob := fnBlob |}.

(** The assignment [_res = r]. *)
Definition assign_res (r : Result) (this : FunctionAdapter)
  : FunctionAdapter :=
  {| _res := r;
     _fn_circle := _fn_circle this;
     _fn_square := _fn_square this;
     _fn_blob := _fn_blob this |}.

(** [void visit(Circle& sh) { _res = _fn_circle(sh); }] *)
Definition visit_Circle (this : FunctionAdapter) (sh : Circle) (e : Env)
  : FunctionAdapter * Circle * Env :=
  let '(r, sh', e') := _fn_circle this sh e in
  (assign_res r this, sh', e').

(** [void visit(Square& sh) { _res = _fn_square(sh); }] *)
Definition visit_Square (this : FunctionAdapter) (sh : Square) (e : Env)
  : FunctionAdapter * Square * Env :=
  let '(r, sh', e') := _fn_square this sh e in
  (assign_res r this, sh', e').

(** [void visit(Blob& sh) { _res = _fn_blob(sh); }] *)
Definition visit_Blob (this : FunctionAdapter) (sh : Blob) (e : Env)
  : FunctionAdapter * Blob * Env :=
  let '(r, sh', e') := _fn_blob this sh e in
  (assign_res r this, sh', e').

(** The overload set of [FunctionAdapter::visit]. *)
#[export] Instance Visit_Circle : Visit FunctionAdapter Circle :=
  visit_Circle.
#[export] Instance Visit_Square : Visit FunctionAdapter Square :=
  visit_Square.
#[export] Instance Visit_Blob : Visit FunctionAdapter Blob :=
  visit_Blob.

(** [template<class Visitable> Result operator()(Visitable& visitable)]:
    [this->visit(visitable); return this->get();] *)
Definition call {Visitable : Type} `{Visit FunctionAdapter Visitable}
    (this : FunctionAdapter) (visitable : Visitable) (e : Env)
  : Result * (FunctionAdapter * Visitable * Env) :=
  let '(this', visitable', e') := visit this visitable e in
  (get this', (this', visitable', e')).

End Adapter.

End Dispatch.

Arguments FunctionAdapter Env Result : clear implicits.

(** ** The variadic [Visitor<Types...>] chain *)

Section VisitorChain.

Context {Env : Type}.

(** [std::function<void (Input& sh)>] *)
Definition VFunc (Input : Type) : Type := Input -> Env -> Input * Env.

(** [template<typename T> class Visitor<T>] *)
Record Visitor1 (T : Type) : Type := mkVisitor1 { _func1 : VFunc T }.

(** [template<typename T, typename... Types> class Visitor<T, Types...>],
    a [Visitor<Types...>] extended with one more handler. *)
Record VisitorN (T Base : Type) : Type :=
  mkVisitorN { _base : Base; _func : VFunc T }.

(** [virtual void visit(T& visitable){ _func(visitable); }] *)
#[export] Instance Visit_Visitor1 (T : Type) : Visit (Visitor1 T) T :=
  fun this visitable e =>
    let '(visitable', e') := _func1 this visitable e in
    (this, visitable', e').

#[export] Instance Visit_VisitorN (T Base : Type)
  : Visit (VisitorN T Base) T | 0 :=
  fun this visitable e =>
    let '(visitable', e') := _func this visitable e in
    (this, visitable', e').

(** [using Visitor<Types...>::visit;] *)
#[export] Instance Visit_inherited (T Base U : Type) `{Visit (Env:=Env) Base U}
  : Visit (VisitorN T Base) U | 10 :=
  fun this visitable e =>
    let '(b', visitable', e') := visit (_base this) visitable e in
    (mkVisitorN b' (_func this), visitable', e').

End VisitorChain.

(** ** Standard output *)

(** What has been inserted into [std::cout], oldest first. A [double] is
    kept as the value inserted; its rendering is the library's. *)
Inductive out_item : Set :=
| OutStr (s : string)
| OutDouble (d : float).

Definition ostream : Set := list out_item.

Class Insert (A : Type) : Type := insert : ostream -> A -> ostream.

#[export] Instance Insert_string : Insert string :=
  fun os s => os ++ [OutStr s].
#[export] Instance Insert_double : Insert float :=
  fun os d => os ++ [OutDouble d].

Notation "os << x" := (insert os x) (at level 50, left associativity).

Open Scope string_scope.

(** The string literal with the one character of code 10. *)
Definition nl : string := String (ascii_of_nat 10) EmptyString.

(** ** The global visitors *)

Set Warnings "-inexact-float".

Definition visitorX
  : VisitorN Circle (VisitorN Square (Visitor1 (Env:=ostream) Blob)) :=
  mkVisitorN
    (mkVisitorN
       (mkVisitor1
          (fun (s : Blob) cout => (s, cout << "Shape is a blob" << nl)))
       (fun (s : Square) cout => (s, cout << "Shape is a square" << nl)))
    (fun (s : Circle) cout => (s, cout << "Shape is a circle" << nl)).

Definition visitorGetName : FunctionAdapter ostream string :=
  FunctionAdapter_new
    (fun (sh : Circle) cout => ("circle", sh, cout))
    (fun (sh : Square) cout => ("square", sh, cout))
    (fun (sh : Blob) cout => ("blob", sh, cout)).

Definition visitorGetArea : FunctionAdapter ostream float :=
  FunctionAdapter_new
    (fun (s : Circle) cout =>
       ((2 * 3.1415 * radius s * radius s)%float, s, cout))
    (fun (s : Square) cout => ((4.0 * side s)%float, s, cout))
    (fun (s : Blob) cout => ((-100.0)%float, s, cout)).

(** ** [main] *)

(** The two global adapters and [std::cout] are the state [main] runs in;
    [s1], [s2] and [s3] are its locals. The operands of one [<<] chain are
    evaluated left to right. *)
Definition main (vName : FunctionAdapter ostream string)
    (vArea : FunctionAdapter ostream float) (cout : ostream)
  : Z * (FunctionAdapter ostream string * FunctionAdapter ostream float
         * ostream) :=
  let s1 := mkCircle 3.0 in
  let s2 := mkSquare 4.0 in
  let s3 := mkBlob in
  let cout := cout << "===> Experiment 1: FunctionAdapter " << nl in
  let '(s1, vName, cout) := accept s1 vName cout in
  let cout := cout << "Type of shape 1 = " << get vName << nl in
  let cout := cout << "Type of shape 2 = " in
  let '(r, (vName, s2, cout)) := call vName s2 cout in
  let cout := cout << r << nl in
  let cout := cout << "Type of shape 3 = " in
  let '(r, (vName, s3, cout)) := call vName s3 cout in
  let cout := cout << r << nl in
  let cout := cout << "===> Experiment 2: FunctionAdapter " << nl in
  let '(s1, vArea, cout) := accept s1 vArea cout in
  let cout := cout << "Perimeter of shape 1 = " << get vArea << nl in
  let '(s2, vArea, cout) := accept s2 vArea cout in
  let cout := cout << "Perimeter of shape 2 = " << get vArea << nl in
  let cout := cout << "Perimeter of shape 2 = " in
  let '(r, (vArea, s2, cout)) := call vArea s2 cout in
  let cout := cout << r << nl in
  let '(s3, vArea, cout) := accept s3 vArea cout in
  let cout := cout << "Perimeter of shape 3 = " << get vArea << nl in
  (0%Z, (vName, vArea, cout)).

(** The process: the globals as their initialisers leave them, then
    [main]. *)
Definition program (cout : ostream) : Z * ostream :=
  let '(status, (_, _, cout')) := main visitorGetName visitorGetArea cout in
  (status, cout').

(** ** Statements over all three variant types *)

(** An instance of any of the variant types: the closed family the
    overloads of [visit] cover. *)
Inductive Shape : Set :=
| ACircle (c : Circle)
| ASquare (s : Square)
| ABlob (b : Blob).

Section AnyShape.

Context {Env Result : Type}.

#[local] Abbreviation Adapter := (FunctionAdapter Env Result).

(** What the handler bound for the type of [x] returns on [x]. *)
Definition handler_result (D : Adapter) (x : Shape) (e : Env) : Result :=
  match x with
  | ACircle c => fst (fst (_fn_circle D c e))
  | ASquare s => fst (fst (_fn_square D s e))
  | ABlob b => fst (fst (_fn_blob D b e))
  end.

(** The environment that handler leaves. *)
Definition handler_env (D : Adapter) (x : Shape) (e : Env) : Env :=
  match x with
  | ACircle c => snd (_fn_circle D c e)
  | ASquare s => snd (_fn_square D s e)
  | ABlob b => snd (_fn_blob D b e)
  end.

(** [D.visit(x)], at the static type of [x]. *)
Definition visit_any (D : Adapter) (x : Shape) (e : Env)
  : Adapter * Shape * Env :=
  match x with
  | ACircle c => let '(D', c', e') := visit D c e in (D', ACircle c', e')
  | ASquare s => let '(D', s', e') := visit D s e in (D', ASquare s', e')
  | ABlob b => let '(D', b', e') := visit D b e in (D', ABlob b', e')
  end.

(** [D(x)], at the static type of [x]. *)
Definition call_any (D : Adapter) (x : Shape) (e : Env)
  : Result * (Adapter * Shape * Env) :=
  match x with
  | ACircle c =>
      let '(r, (D', c', e')) := call D c e in (r, (D', ACircle c', e'))
  | ASquare s =>
      let '(r, (D', s', e')) := call D s e in (r, (D', ASquare s', e'))
  | ABlob b =>
      let '(r, (D', b', e')) := call D b e in (r, (D', ABlob b', e'))
  end.

(** The member functions a client can invoke on an adapter. *)
Inductive op : Type :=
| OpVisit (x : Shape)
| OpGet
| OpCall (x : Shape).

Definition step (st : Adapter * Env) (o : op) : Adapter * Env :=
  let '(D, e) := st in
  match o with
  | OpVisit x => let '(D', _, e') := visit_any D x e in (D', e')
  | OpGet => let _ := get D in (D, e)
  | OpCall x => let '(_, (D', _, e')) := call_any D x e in (D', e')
  end.

Definition run (ops : list op) (st : Adapter * Env) : Adapter * Env :=
  fold_left step ops st.

(** [D'] has the handler fields of [D]. *)
Definition same_table (D D' : Adapter) : Prop :=
  _fn_circle D' = _fn_circle D /\
  _fn_square D' = _fn_square D /\
  _fn_blob D' = _fn_blob D.

(** The words of the specification for the callable form: [handle]
    followed by [lastResult], as two steps. *)
Definition handle_then_lastResult {T : Type} `{Visit Env Adapter T}
    (D : Adapter) (x : T) (e : Env) : Result * (Adapter * T * Env) :=
  let after_handle := visit D x e in
  let last := get (fst (fst after_handle)) in
  (last, after_handle).

End AnyShape.

(** Any state the global [visitorGetName] can be in: its handlers, and
    some string in [_res]. *)
Definition nameAdapter (r : string) : FunctionAdapter ostream string :=
  assign_res r visitorGetName.

(** Likewise for [visitorGetArea]. *)
Definition areaAdapter (a : float) : FunctionAdapter ostream float :=
  assign_res a visitorGetArea.

(** The items [main] inserts into [std::cout]. *)
Definition demo_output : ostream :=
  [ OutStr "===> Experiment 1: FunctionAdapter "; OutStr nl;
    OutStr "Type of shape 1 = "; OutStr "circle"; OutStr nl;
    OutStr "Type of shape 2 = "; OutStr "square"; OutStr nl;
    OutStr "Type of shape 3 = "; OutStr "blob"; OutStr nl;
    OutStr "===> Experiment 2: FunctionAdapter "; OutStr nl;
    OutStr "Perimeter of shape 1 = "; OutDouble 56.547%float; OutStr nl;
    OutStr "Perimeter of shape 2 = "; OutDouble 16%float; OutStr nl;
    OutStr "Perimeter of shape 2 = "; OutDouble 16%float; OutStr nl;
    OutStr "Perimeter of shape 3 = "; OutDouble (-100)%float; OutStr nl ].

(** ** Statements about whole dispatches and traces *)

Section DispatchStatements.

Context {Env Result : Type}.

#[local] Abbreviation Adapter := (FunctionAdapter Env Result).

(** The instance that the handler bound for the type of [x] leaves. *)
Definition handler_shape (D : Adapter) (x : Shape) (e : Env) : Shape :=
  match x with
  | ACircle c => ACircle (snd (fst (_fn_circle D c e)))
  | ASquare s => ASquare (snd (fst (_fn_square D s e)))
  | ABlob b => ABlob (snd (fst (_fn_blob D b e)))
  end.

(** A trace without its [get] calls and with [visit] in place of every
    [operator()]. *)
Definition visits_only (ops : list op) : list op :=
  flat_map
    (fun o : op =>
       match o with
       | OpVisit x => [OpVisit x]
       | OpGet => []
       | OpCall x => [OpVisit x]
       end)
    ops.

End DispatchStatements.

(** ** Statements about the [Visitor] chain *)

Section ChainStatements.

Context {Env : Type}.

(** [Visitor<Circle, Square, Blob>] *)
Definition Visitor3 : Type :=
  VisitorN (Env:=Env) Circle
    (VisitorN (Env:=Env) Square (Visitor1 (Env:=Env) Blob)).

(** [Visitor<Circle, Square, Blob>{fC, fS, fB}]: each constructor keeps
    its first argument in [_func] and passes the rest to its base. *)
Definition Visitor3_new (fC : VFunc Circle) (fS : VFunc Square)
    (fB : VFunc Blob) : Visitor3 :=
  mkVisitorN (mkVisitorN (mkVisitor1 fB) fS) fC.

(** [x.accept(V)], at the static type of [x]. *)
Definition accept_chain (x : Shape) (V : Visitor3) (e : Env)
  : Shape * Visitor3 * Env :=
  match x with
  | ACircle c => let '(c', V', e') := accept c V e in (ACircle c', V', e')
  | ASquare s => let '(s', V', e') := accept s V e in (ASquare s', V', e')
  | ABlob b => let '(b', V', e') := accept b V e in (ABlob b', V', e')
  end.

(** What the one of [fC], [fS], [fB] for the type of [x] leaves. *)
Definition chain_handler (fC : VFunc Circle) (fS : VFunc Square)
    (fB : VFunc Blob) (x : Shape) (e : Env) : Shape * Env :=
  match x with
  | ACircle c => let '(c', e') := fC c e in (ACircle c', e')
  | ASquare s => let '(s', e') := fS s e in (ASquare s', e')
  | ABlob b => let '(b', e') := fB b e in (ABlob b', e')
  end.

End ChainStatements.

(** The line [visitorX] prints for an instance. *)
Definition banner (x : Shape) : string :=
  match x with
  | ACircle _ => "Shape is a circle"
  | ASquare _ => "Shape is a square"
  | ABlob _ => "Shape is a blob"
  end.

(** ** Sign of a double *)

(** The sign bit of a double that is not a NaN. *)
Definition sf_sign (x : spec_float) : option bool :=
  match x with
  | S754_zero s => Some s
  | S754_infinity s => Some s
  | S754_finite s _ _ => Some s
  | S754_nan => None
  end.

(** * Properties *)

Section AdapterFacts.

Context {Env Result : Type}.

#[local] Abbreviation Adapter := (FunctionAdapter Env Result).

(** ** One call of [visit], per overload *)

Lemma visit_Circle_eq (D : Adapter) (sh : Circle) (e : Env) :
  visit D sh e =
  (assign_res (fst (fst (_fn_circle D sh e))) D,
   snd (fst (_fn_circle D sh e)), snd (_fn_circle D sh e)).
Proof.
  unfold visit, Visit_Circle, visit_Circle.
  destruct (_fn_circle D sh e) as [[r sh'] e']. reflexivity.
Qed.

Lemma visit_Square_eq (D : Adapter) (sh : Square) (e : Env) :
  visit D sh e =
  (assign_res (fst (fst (_fn_square D sh e))) D,
   snd (fst (_fn_square D sh e)), snd (_fn_square D sh e)).
Proof.
  unfold visit, Visit_Square, visit_Square.
  destruct (_fn_square D sh e) as [[r sh'] e']. reflexivity.
Qed.

Lemma visit_Blob_eq (D : Adapter) (sh : Blob) (e : Env) :
  visit D sh e =
  (assign_res (fst (fst (_fn_blob D sh e))) D,
   snd (fst (_fn_blob D sh e)), snd (_fn_blob D sh e)).
Proof.
  unfold visit, Visit_Blob, visit_Blob.
  destruct (_fn_blob D sh e) as [[r sh'] e']. reflexivity.
Qed.

(** [operator()] in terms of [visit], whatever the overload. *)
Lemma call_eq {T : Type} `{Visit Env Adapter T} (D : Adapter) (x : T)
    (e : Env) :
  call D x e = (get (fst (fst (visit D x e))), visit D x e).
Proof.
  unfold call. destruct (visit D x e) as [[D' x'] e']. reflexivity.
Qed.

Lemma get_assign_res (r : Result) (D : Adapter) : get (assign_res r D) = r.
Proof. reflexivity. Qed.

Lemma assign_res_twice (r r' : Result) (D : Adapter) :
  assign_res r' (assign_res r D) = assign_res r' D.
Proof. reflexivity. Qed.

Lemma assign_res_get (D : Adapter) : assign_res (get D) D = D.
Proof. destruct D; reflexivity. Qed.

(** ** The same facts over [Shape] *)

Lemma visit_any_adapter (D : Adapter) (x : Shape) (e : Env) :
  fst (fst (visit_any D x e)) = assign_res (handler_result D x e) D.
Proof.
  destruct x as [c | s | b]; cbn [visit_any handler_result].
  - rewrite visit_Circle_eq. reflexivity.
  - rewrite visit_Square_eq. reflexivity.
  - rewrite visit_Blob_eq. reflexivity.
Qed.

Lemma visit_any_env (D : Adapter) (x : Shape) (e : Env) :
  snd (visit_any D x e) = handler_env D x e.
Proof.
  destruct x as [c | s | b]; cbn [visit_any handler_env].
  - rewrite visit_Circle_eq. reflexivity.
  - rewrite visit_Square_eq. reflexivity.
  - rewrite visit_Blob_eq. reflexivity.
Qed.

Lemma call_any_eq (D : Adapter) (x : Shape) (e : Env) :
  call_any D x e = (get (fst (fst (visit_any D x e))), visit_any D x e).
Proof.
  destruct x as [c | s | b]; cbn [call_any visit_any]; rewrite call_eq;
    destruct (visit D _ e) as [[D' x'] e']; reflexivity.
Qed.

(** The handlers an adapter dispatches to do not depend on [_res]. *)
Lemma handler_result_assign_res (r : Result) (D : Adapter) (x : Shape)
    (e : Env) :
  handler_result (assign_res r D) x e = handler_result D x e.
Proof. destruct x; reflexivity. Qed.

Lemma handler_env_assign_res (r : Result) (D : Adapter) (x : Shape)
    (e : Env) :
  handler_env (assign_res r D) x e = handler_env D x e.
Proof. destruct x; reflexivity. Qed.

(** ** Dispatch *)

(** C1. An adapter constructed with the handlers [hC], [hS] and [hB],
    called as a function on a circle, a square or a blob, returns what
    [hC], [hS] or [hB] returns on that instance. *)
Theorem call_returns_bound_handler `{ValueInit Result}
    (hC : Func Result Circle) (hS : Func Result Square)
    (hB : Func Result Blob) :
  let D : Adapter := FunctionAdapter_new hC hS hB in
  (forall (x : Circle) (e : Env), fst (call D x e) = fst (fst (hC x e))) /\
  (forall (x : Square) (e : Env), fst (call D x e) = fst (fst (hS x e))) /\
  (forall (x : Blob) (e : Env), fst (call D x e) = fst (fst (hB x e))).
Proof.
  intro D. repeat split; intros x e; rewrite call_eq; cbn [fst].
  - rewrite visit_Circle_eq. reflexivity.
  - rewrite visit_Square_eq. reflexivity.
  - rewrite visit_Blob_eq. reflexivity.
Qed.

(** C2. After [D.visit(x)], [D.get()] is the result of the handler for
    the type of [x]. After a further [D.visit(y)], with [y] of any of the
    three types, [D.get()] is the result of the handler for [y], and it is
    the same whatever the slot held before that visit. *)
Theorem get_is_latest_result (D : Adapter) (x y : Shape) (e : Env) :
  let st1 := visit_any D x e in
  let D1 := fst (fst st1) in
  let e1 := snd st1 in
  let D2 := fst (fst (visit_any D1 y e1)) in
  get D1 = handler_result D x e /\
  get D2 = handler_result D y e1 /\
  (forall r : Result,
     get (fst (fst (visit_any (assign_res r D) y e1))) = get D2).
Proof.
  cbn zeta. repeat split.
  - rewrite visit_any_adapter. reflexivity.
  - rewrite !visit_any_adapter, get_assign_res.
    apply handler_result_assign_res.
  - intro r. rewrite !visit_any_adapter, !get_assign_res.
    rewrite !handler_result_assign_res. reflexivity.
Qed.

(** C4. For every overload of [visit], [D(x)] returns the value and
    leaves the adapter, the instance and the environment that
    [D.visit(x)] followed by [D.get()] returns and leaves; reading the
    result through [get] changes nothing. *)
Theorem call_is_visit_then_get {T : Type} `{Visit Env Adapter T}
    (D : Adapter) (x : T) (e : Env) :
  call D x e = handle_then_lastResult D x e /\
  snd (call D x e) = visit D x e.
Proof.
  rewrite call_eq. unfold handle_then_lastResult. split; reflexivity.
Qed.

(** C6. For every implementation type and every visitor with an overload
    of [visit] for it, [instance.accept(v)] is the call [v.visit(instance)]
    on that very instance: [visit] receives the instance as it is, and the
    instance, the visitor and the environment end as [visit] leaves
    them. *)
Theorem accept_forwards_to_visit {Implementation Visitor : Type}
    `{Visit Env Visitor Implementation}
    (this : Implementation) (v : Visitor) (e : Env) :
  accept this v e =
  (snd (fst (visit v this e)), fst (fst (visit v this e)),
   snd (visit v this e)).
Proof.
  unfold accept. destruct (visit v this e) as [[v' this'] e']. reflexivity.
Qed.

(** ** The handler table *)

Lemma step_only_assigns_res (st : Adapter * Env) (o : op) :
  exists r : Result, fst (step st o) = assign_res r (fst st).
Proof.
  destruct st as [D e]. destruct o as [x | | x]; cbn [step fst].
  - exists (handler_result D x e).
    rewrite <- visit_any_adapter.
    destruct (visit_any D x e) as [[D' x'] e']. reflexivity.
  - exists (get D). symmetry. apply assign_res_get.
  - exists (handler_result D x e).
    rewrite call_any_eq, <- visit_any_adapter.
    destruct (visit_any D x e) as [[D' x'] e']. reflexivity.
Qed.

Lemma run_only_assigns_res (ops : list op) (st : Adapter * Env) :
  exists r : Result, fst (run ops st) = assign_res r (fst st).
Proof.
  revert st. induction ops as [| o ops IH]; intro st.
  - exists (get (fst st)). symmetry. apply assign_res_get.
  - cbn [run fold_left]. destruct (IH (step st o)) as [r Hr].
    destruct (step_only_assigns_res st o) as [r0 Hr0].
    exists r. unfold run in Hr. rewrite Hr, Hr0. apply assign_res_twice.
Qed.

(** C7. Whatever sequence of [visit], [get] and [operator()] calls is
    made on an adapter, its three handler fields stay the ones it
    started with, and the adapter it ends as is the starting one with
    only [_res] assigned. *)
Theorem handler_table_is_fixed (ops : list op) (e : Env) :
  (forall D : Adapter,
      let D' := fst (run ops (D, e)) in
      same_table D D' /\ D' = assign_res (get D') D) /\
  (forall (init : ValueInit Result) (hC : Func Result Circle)
          (hS : Func Result Square) (hB : Func Result Blob),
      let D' := fst (run ops (FunctionAdapter_new hC hS hB, e)) in
      _fn_circle D' = hC /\ _fn_square D' = hS /\ _fn_blob D' = hB).
Proof.
  split.
  - intro D. cbn zeta.
    destruct (run_only_assigns_res ops (D, e)) as [r Hr].
    cbn [fst] in Hr. rewrite Hr. repeat split.
  - intros init hC hS hB. cbn zeta.
    destruct (run_only_assigns_res ops (FunctionAdapter_new hC hS hB, e))
      as [r Hr].
    cbn [fst] in Hr. rewrite Hr. repeat split.
Qed.

(** A freshly constructed adapter holds the value-initialised [Result]. *)
Lemma get_after_construction `{ValueInit Result}
    (hC : Func Result Circle) (hS : Func Result Square)
    (hB : Func Result Blob) :
  get (FunctionAdapter_new (Env:=Env) hC hS hB) = value_init.
Proof. reflexivity. Qed.

End AdapterFacts.

(** * The program *)

Lemma nameAdapter_initial : nameAdapter "" = visitorGetName.
Proof. reflexivity. Qed.

Lemma areaAdapter_initial : areaAdapter 0 = visitorGetArea.
Proof. reflexivity. Qed.

(** ** The visitors at work *)

Example accept_visitorX_circle :
  accept (mkCircle 3.0) visitorX [] =
  (mkCircle 3.0, visitorX, [OutStr "Shape is a circle"; OutStr nl]).
Proof. reflexivity. Qed.

Example accept_visitorX_square :
  accept (mkSquare 4.0) visitorX [] =
  (mkSquare 4.0, visitorX, [OutStr "Shape is a square"; OutStr nl]).
Proof. reflexivity. Qed.

Example accept_visitorX_blob :
  accept mkBlob visitorX [] =
  (mkBlob, visitorX, [OutStr "Shape is a blob"; OutStr nl]).
Proof. reflexivity. Qed.

Example accept_visitorGetName_circle :
  accept (mkCircle 3.0) visitorGetName [] =
  (mkCircle 3.0, nameAdapter "circle", []).
Proof. reflexivity. Qed.

Example accept_visitorGetArea_square :
  accept (mkSquare 4.0) visitorGetArea [] =
  (mkSquare 4.0, areaAdapter 16, []).
Proof. reflexivity. Qed.

(** A handler that writes through its reference: the write reaches the
    instance [accept] was called on. *)
Example accept_writes_back :
  let grow : Func float Circle :=
    fun s (e : unit) => (radius s, mkCircle (radius s + 1), e) in
  let D := FunctionAdapter_new grow
             (fun s e => (side s, s, e)) (fun b e => (0%float, b, e)) in
  accept (mkCircle 3.0) D tt = (mkCircle 4.0, assign_res 3.0%float D, tt).
Proof. reflexivity. Qed.

(** C9. Between construction and the first [visit] or [operator()],
    [get] returns the value-initialised [Result]: the empty string for
    [FunctionAdapter<std::string>], [0.0] for [FunctionAdapter<double>]. *)
Theorem get_before_any_visit :
  (forall (Env Result : Type) (init : ValueInit Result)
          (hC : Func Result Circle) (hS : Func Result Square)
          (hB : Func Result Blob),
      get (FunctionAdapter_new (Env:=Env) hC hS hB) = value_init) /\
  (forall (Env : Type) (hC : Func string Circle) (hS : Func string Square)
          (hB : Func string Blob),
      get (FunctionAdapter_new (Env:=Env) hC hS hB) = "") /\
  (forall (Env : Type) (hC : Func float Circle) (hS : Func float Square)
          (hB : Func float Blob),
      get (FunctionAdapter_new (Env:=Env) hC hS hB) = 0%float) /\
  get visitorGetName = "" /\
  get visitorGetArea = 0%float.
Proof.
  repeat split; intros; apply get_after_construction.
Qed.

(** C5. In whatever state [visitorGetName] is, dispatching a circle
    yields ["circle"] and [get] then returns ["circle"]; a square yields
    ["square"] and a blob ["blob"], through [visit] followed by [get] and
    through [operator()] alike. *)
Theorem visitorGetName_names (r : string) (cout : ostream) :
  let D := nameAdapter r in
  (forall c : Circle,
      fst (call D c cout) = "circle" /\
      get (fst (fst (snd (call D c cout)))) = "circle" /\
      get (fst (fst (visit D c cout))) = "circle" /\
      get (snd (fst (accept c D cout))) = "circle") /\
  (forall s : Square,
      fst (call D s cout) = "square" /\
      get (fst (fst (visit D s cout))) = "square") /\
  (forall b : Blob,
      fst (call D b cout) = "blob" /\
      get (fst (fst (visit D b cout))) = "blob") /\
  fst (call D (mkCircle 3.0) cout) = "circle" /\
  fst (call D (mkSquare 4.0) cout) = "square".
Proof.
  cbn zeta. repeat split.
Qed.

(** C3 as stated fails for the circle: the value computed for
    [Circle(3.0)] differs from 56.5486 in the third decimal, it is not
    within 0.001 of it. *)
Lemma circle_metric_is_not_56_5486 :
  ~ approx (fst (call visitorGetArea (mkCircle 3.0) [])) 56.5486 (1 # 1000).
Proof. unfold approx. vm_compute. discriminate. Qed.

(** C3, amended. In whatever state [visitorGetArea] is, [Circle(3.0)]
    yields the double nearest to 56.547, the value of [2 * 3.1415 * r * r]
    in binary64 arithmetic, which lies within 1e-12 of 56.547;
    [Square(4.0)] yields exactly 16.0 and [Blob()] exactly -100.0. *)
Theorem visitorGetArea_values (a : float) (cout : ostream) :
  let D := areaAdapter a in
  fst (call D (mkCircle 3.0) cout) = 56.547%float /\
  approx (fst (call D (mkCircle 3.0) cout)) 56.547 (1 # 1000000000000) /\
  fst (call D (mkSquare 4.0) cout) = 16%float /\
  exactly (fst (call D (mkSquare 4.0) cout)) 16 /\
  fst (call D mkBlob cout) = (-100)%float /\
  exactly (fst (call D mkBlob cout)) (-100).
Proof.
  cbn zeta. repeat split; vm_compute; reflexivity.
Qed.

(** C10. In whatever state the two global adapters are, dispatching an
    instance, by [visit] or by [operator()], returns the instance (so
    [radius] and [side]) and the environment as they were, and a second
    dispatch of the instance returns the result of the first. *)
Theorem dispatch_reads_only (x : Shape) (r : string) (a : float)
    (cout : ostream) :
  let N := nameAdapter r in
  let A := areaAdapter a in
  snd (fst (visit_any N x cout)) = x /\
  snd (fst (visit_any A x cout)) = x /\
  snd (visit_any N x cout) = cout /\
  snd (visit_any A x cout) = cout /\
  (let '(r1, (N1, x1, cout1)) := call_any N x cout in
   x1 = x /\ fst (call_any N1 x1 cout1) = r1) /\
  (let '(a1, (A1, x1, cout1)) := call_any A x cout in
   x1 = x /\ fst (call_any A1 x1 cout1) = a1).
Proof.
  cbn zeta. destruct x as [c | s | b]; repeat split.
Qed.

Lemma main_status (vName : FunctionAdapter ostream string)
    (vArea : FunctionAdapter ostream float) (cout : ostream) :
  fst (main vName vArea cout) = 0%Z.
Proof.
  unfold main.
  repeat match goal with
         | |- context [match ?t with pair _ _ => _ end] => destruct t
         end.
  reflexivity.
Qed.

Lemma main_run (r : string) (a : float) (cout : ostream) :
  main (nameAdapter r) (areaAdapter a) cout =
  (0%Z, (nameAdapter "blob", areaAdapter (-100), (cout ++ demo_output)%list)).
Proof.
  unfold main, demo_output. cbn - [nl PrimFloat.mul insert].
  unfold insert, Insert_string, Insert_double.
  repeat rewrite <- app_assoc. cbn [app].
  reflexivity.
Qed.

(** C8. [main] returns 0 from every state of the globals and of
    [std::cout], and the process, started from the globals as
    initialised, appends the demonstration output to [std::cout] and
    exits with status 0. *)
Theorem main_returns_zero :
  (forall (vName : FunctionAdapter ostream string)
          (vArea : FunctionAdapter ostream float) (cout : ostream),
      fst (main vName vArea cout) = 0%Z) /\
  (forall cout : ostream, program cout = (0%Z, (cout ++ demo_output)%list)).
Proof.
  split.
  - exact main_status.
  - intro cout. unfold program.
    rewrite <- nameAdapter_initial, <- areaAdapter_initial, main_run.
    reflexivity.
Qed.

(** * Beyond the claims *)

Section DispatchFacts.

Context {Env Result : Type}.

#[local] Abbreviation Adapter := (FunctionAdapter Env Result).

Lemma visit_any_shape (D : Adapter) (x : Shape) (e : Env) :
  snd (fst (visit_any D x e)) = handler_shape D x e.
Proof.
  destruct x as [c | s | b]; cbn [visit_any handler_shape].
  - rewrite visit_Circle_eq. reflexivity.
  - rewrite visit_Square_eq. reflexivity.
  - rewrite visit_Blob_eq. reflexivity.
Qed.

Lemma visit_any_eq (D : Adapter) (x : Shape) (e : Env) :
  visit_any D x e =
  (assign_res (handler_result D x e) D, handler_shape D x e,
   handler_env D x e).
Proof.
  rewrite <- visit_any_adapter, <- visit_any_shape, <- visit_any_env.
  destruct (visit_any D x e) as [[D' x'] e']. reflexivity.
Qed.

Lemma handler_shape_assign_res (r : Result) (D : Adapter) (x : Shape)
    (e : Env) :
  handler_shape (assign_res r D) x e = handler_shape D x e.
Proof. destruct x; reflexivity. Qed.

(** X1. [D(x)] applies the handler for the type of [x] once and does
    nothing else: it returns that handler's result, the adapter ends as
    [D] with that result in [_res], and the instance and the environment
    end as the handler leaves them. *)
Theorem call_applies_handler_once (D : Adapter) (x : Shape) (e : Env) :
  call_any D x e =
  (handler_result D x e,
   (assign_res (handler_result D x e) D, handler_shape D x e,
    handler_env D x e)).
Proof.
  rewrite call_any_eq, visit_any_eq. reflexivity.
Qed.

(** X2. A dispatch reaches no handler but the one for the type of its
    argument: two adapters that agree on that handler give the same
    result, instance and environment, whatever their other two handlers
    and their [_res] are. *)
Theorem dispatch_ignores_other_handlers (r r' : Result)
    (hC hC' : Func Result Circle) (hS hS' : Func Result Square)
    (hB hB' : Func Result Blob) (e : Env) :
  (forall c : Circle,
      let D := mkFunctionAdapter r hC hS hB in
      let D' := mkFunctionAdapter r' hC hS' hB' in
      fst (call D c e) = fst (call D' c e) /\
      snd (snd (call D c e)) = snd (snd (call D' c e)) /\
      snd (fst (snd (call D c e))) = snd (fst (snd (call D' c e)))) /\
  (forall s : Square,
      let D := mkFunctionAdapter r hC hS hB in
      let D' := mkFunctionAdapter r' hC' hS hB' in
      fst (call D s e) = fst (call D' s e) /\
      snd (snd (call D s e)) = snd (snd (call D' s e)) /\
      snd (fst (snd (call D s e))) = snd (fst (snd (call D' s e)))) /\
  (forall b : Blob,
      let D := mkFunctionAdapter r hC hS hB in
      let D' := mkFunctionAdapter r' hC' hS' hB in
      fst (call D b e) = fst (call D' b e) /\
      snd (snd (call D b e)) = snd (snd (call D' b e)) /\
      snd (fst (snd (call D b e))) = snd (fst (snd (call D' b e)))).
Proof.
  repeat split; rewrite !call_eq; cbn [fst snd];
    rewrite ?visit_Circle_eq, ?visit_Square_eq, ?visit_Blob_eq;
    reflexivity.
Qed.

Lemma step_call_is_visit (st : Adapter * Env) (x : Shape) :
  step st (OpCall x) = step st (OpVisit x).
Proof.
  destruct st as [D e]. cbn [step]. rewrite call_any_eq.
  destruct (visit_any D x e) as [[D' x'] e']. reflexivity.
Qed.

Lemma step_get_is_skip (st : Adapter * Env) : step st OpGet = st.
Proof. destruct st as [D e]. reflexivity. Qed.

(** X3. In any sequence of [visit], [get] and [operator()] calls, the
    [get] calls can be dropped and every [operator()] replaced by
    [visit]: the adapter and the environment end the same. *)
Theorem trace_equals_its_visits (ops : list op) (st : Adapter * Env) :
  run ops st = run (visits_only ops) st.
Proof.
  revert st. induction ops as [| o ops IH]; intro st.
  - reflexivity.
  - destruct o as [x | | x]; cbn [run fold_left visits_only flat_map app].
    + apply IH.
    + rewrite step_get_is_skip. apply IH.
    + rewrite step_call_is_visit. apply IH.
Qed.

(** X4. If the handler for the type of [x] leaves [x] and the
    environment as they are, dispatching [x] a second time changes
    nothing: adapter, instance and environment are as after the first
    dispatch. *)
Theorem visit_twice_is_visit_once (D : Adapter) (x : Shape) (e : Env)
    (Hshape : handler_shape D x e = x) (Henv : handler_env D x e = e) :
  let '(D1, x1, e1) := visit_any D x e in
  visit_any D1 x1 e1 = (D1, x1, e1).
Proof.
  rewrite visit_any_eq, Hshape, Henv, visit_any_eq.
  rewrite handler_result_assign_res, assign_res_twice.
  rewrite handler_shape_assign_res, handler_env_assign_res, Hshape, Henv.
  reflexivity.
Qed.

End DispatchFacts.

Lemma visit_twice_is_visit_once_witness :
  handler_shape visitorGetArea (ASquare (mkSquare 4.0)) [] =
    ASquare (mkSquare 4.0) /\
  handler_env visitorGetArea (ASquare (mkSquare 4.0)) [] = [] /\
  (let '(D1, x1, e1) := visit_any visitorGetArea (ASquare (mkSquare 4.0)) []
   in visit_any D1 x1 e1 = (D1, x1, e1)).
Proof.
  split; [reflexivity | split; [reflexivity |]].
  apply (@visit_twice_is_visit_once ostream float visitorGetArea
           (ASquare (mkSquare 4.0)) []);
    reflexivity.
Defined.

(** ** The [Visitor] chain *)

Lemma visitorX_new :
  visitorX =
  Visitor3_new
    (fun (s : Circle) cout => (s, cout << "Shape is a circle" << nl))
    (fun (s : Square) cout => (s, cout << "Shape is a square" << nl))
    (fun (s : Blob) cout => (s, cout << "Shape is a blob" << nl)).
Proof. reflexivity. Qed.



(** ** The global adapters over a trace *)

Lemma step_nameAdapter (r : string) (cout : ostream) (o : op) :
  exists r' : string, step (nameAdapter r, cout) o = (nameAdapter r', cout).
Proof.
  destruct o as [x | | x]; [| exists r; reflexivity |];
    destruct x as [c | s | b]; eexists; reflexivity.
Qed.

Lemma step_areaAdapter (a : float) (cout : ostream) (o : op) :
  exists a' : float, step (areaAdapter a, cout) o = (areaAdapter a', cout).
Proof.
  destruct o as [x | | x]; [| exists a; reflexivity |];
    destruct x as [c | s | b]; eexists; reflexivity.
Qed.

(** X7. No sequence of [visit], [get] and [operator()] calls on
    [visitorGetName] or on [visitorGetArea] writes to [std::cout]: all
    output of the program comes from the insertions of [main]. *)
Theorem global_adapters_never_print (ops : list op) (cout : ostream) :
  (forall r : string, snd (run ops (nameAdapter r, cout)) = cout) /\
  (forall a : float, snd (run ops (areaAdapter a, cout)) = cout).
Proof.
  split.
  - induction ops as [| o ops IH]; intro r; [reflexivity |].
    cbn [run fold_left]. destruct (step_nameAdapter r cout o) as [r' ->].
    apply IH.
  - induction ops as [| o ops IH]; intro a; [reflexivity |].
    cbn [run fold_left]. destruct (step_areaAdapter a cout o) as [a' ->].
    apply IH.
Qed.

(** ** The circle metric on every double *)

Lemma binary_round_aux_sign (prec emax : Z) (s : bool) (m e : Z)
    (l : location) :
  binary_round_aux prec emax s m e l = S754_nan \/
  sf_sign (binary_round_aux prec emax s m e l) = Some s.
Proof.
  unfold binary_round_aux.
  destruct (shr_fexp prec emax m e l) as [mrs' e'].
  destruct (shr_fexp prec emax _ e' loc_Exact) as [mrs'' e''].
  destruct (shr_m mrs''); [right; reflexivity | | left; reflexivity].
  destruct (Z.leb e'' (emax - prec)); right; reflexivity.
Qed.

Lemma SFmul_sign (prec emax : Z) (x y : spec_float) :
  SFmul prec emax x y = S754_nan \/
  exists sx sy : bool,
    sf_sign x = Some sx /\ sf_sign y = Some sy /\
    sf_sign (SFmul prec emax x y) = Some (xorb sx sy).
Proof.
  destruct x as [sx | sx | | sx mx ex], y as [sy | sy | | sy my ey];
    cbn [SFmul];
    try (left; reflexivity);
    try (right; exists sx, sy; repeat split; reflexivity).
  destruct (binary_round_aux_sign prec emax (xorb sx sy)
              (Z.pos (mx * my)) (ex + ey) loc_Exact) as [H | H].
  - left. exact H.
  - right. exists sx, sy. repeat split. exact H.
Qed.

Lemma mul_sign (x y : float) :
  Prim2SF (x * y) = S754_nan \/
  exists sx sy : bool,
    sf_sign (Prim2SF x) = Some sx /\ sf_sign (Prim2SF y) = Some sy /\
    sf_sign (Prim2SF (x * y)) = Some (xorb sx sy).
Proof. rewrite mul_spec. apply SFmul_sign. Qed.

Lemma mul_nan_l (x y : float) :
  Prim2SF x = S754_nan -> Prim2SF (x * y) = S754_nan.
Proof. intro H. rewrite mul_spec, H. reflexivity. Qed.

Lemma not_below_zero (x : float) :
  Prim2SF x = S754_nan \/ sf_sign (Prim2SF x) = Some false ->
  (x <? 0)%float = false.
Proof.
  intro H. rewrite ltb_spec. change (Prim2SF 0) with (S754_zero false).
  destruct H as [H | H].
  - rewrite H. reflexivity.
  - destruct (Prim2SF x) as [s | s | | s m e]; cbn in H; try discriminate;
      injection H as ->; reflexivity.
Qed.

Lemma binary_round_aux_negb (prec emax : Z) (s : bool) (m e : Z)
    (l : location) :
  binary_round_aux prec emax (negb s) m e l =
  SFopp (binary_round_aux prec emax s m e l).
Proof.
  unfold binary_round_aux.
  destruct (shr_fexp prec emax m e l) as [mrs' e'].
  destruct (shr_fexp prec emax _ e' loc_Exact) as [mrs'' e''].
  destruct (shr_m mrs''); try reflexivity.
  destruct (Z.leb e'' (emax - prec)); reflexivity.
Qed.

Lemma SFmul_opp_r (prec emax : Z) (x y : spec_float) :
  SFmul prec emax x (SFopp y) = SFopp (SFmul prec emax x y).
Proof.
  destruct x as [sx | sx | | sx mx ex], y as [sy | sy | | sy my ey];
    cbn [SFmul SFopp]; try reflexivity;
    try (destruct sx, sy; reflexivity).
  rewrite <- binary_round_aux_negb.
  destruct sx, sy; reflexivity.
Qed.

Lemma SFmul_opp_opp (prec emax : Z) (x y : spec_float) :
  SFmul prec emax (SFopp x) (SFopp y) = SFmul prec emax x y.
Proof.
  destruct x as [sx | sx | | sx mx ex], y as [sy | sy | | sy my ey];
    cbn [SFmul SFopp]; try reflexivity; destruct sx, sy; reflexivity.
Qed.

(** X8. The circle metric is never below zero: for every [radius],
    negative, infinite or NaN included, the comparison [result < 0] is
    false. *)
Theorem circle_metric_never_negative (c : Circle) (a : float)
    (cout : ostream) :
  (fst (call (areaAdapter a) c cout) <? 0)%float = false.
Proof.
  change (fst (call (areaAdapter a) c cout))
    with (2 * 3.1415 * radius c * radius c)%float.
  apply not_below_zero.
  destruct (mul_sign (2 * 3.1415) (radius c))
    as [H | (sc & sr & Hc & Hr & H)].
  - left. apply mul_nan_l, H.
  - destruct (mul_sign (2 * 3.1415 * radius c) (radius c))
      as [H' | (s1 & s2 & H1 & H2 & H')].
    + left. exact H'.
    + right. rewrite H'. rewrite H in H1. rewrite Hr in H2.
      injection H1 as <-. injection H2 as <-.
      vm_compute in Hc. injection Hc as <-. destruct sr; reflexivity.
Qed.


(** X10. No side is rejected either, and the square metric follows its
    sign: [Square(-s)] gives the opposite of what [Square(s)] gives, for
    every double [s]. *)
Theorem square_metric_is_odd (s a : float) (cout : ostream) :
  fst (call (areaAdapter a) (mkSquare (- s)) cout) =
  (- fst (call (areaAdapter a) (mkSquare s) cout))%float.
Proof.
  change (4.0 * (- s) = - (4.0 * s))%float.
  apply Prim2SF_inj.
  rewrite opp_spec, !mul_spec, opp_spec. apply SFmul_opp_r.
Qed.
